(** * A shallow embedding of [app.py], the knowledge-assistant gateway

    The program is a Flask application with three JSON endpoints
    ([/kbanswer], [/search], [/answer]) that forward a message to a
    retrieval pipeline or to a hosted language model.  Everything the
    program itself decides (the guards, the [try]/[except] blocks, the
    formatting loop, the status codes) is embedded below; the
    collaborators it calls (the retrieval chain, the hosted model, the
    template renderer) are variables of a section. *)

From Stdlib Require Import List NArith ZArith QArith String Ascii Bool Lia.
From Stdlib Require Import Floats.SpecFloat.
From Stdlib Require Import DecimalPos DecimalN.
Import ListNotations.

Set Implicit Arguments.
Local Open Scope N_scope.

(** ** Python strings

    A Python [str] is a sequence of Unicode code points. *)

Definition pystr : Type := list N.

(** An ASCII literal of the source, as code points. *)
Fixpoint lit (s : string) : pystr :=
  match s with
  | EmptyString => []
  | String a rest => N_of_ascii a :: lit rest
  end.

(** The line feed of the escapes [\n] in the source. *)
Definition LF : N := 10.

(** [str.isspace] on one code point: the table CPython's [str.strip]
    consults when it is called without an argument. *)
Definition isspace (c : N) : bool :=
  ((9 <=? c) && (c <=? 13))
  || ((28 <=? c) && (c <=? 32))
  || (c =? 133) || (c =? 160) || (c =? 5760)
  || ((8192 <=? c) && (c <=? 8202))
  || (c =? 8232) || (c =? 8233) || (c =? 8239) || (c =? 8287)
  || (c =? 12288).

Fixpoint lstrip (s : pystr) : pystr :=
  match s with
  | [] => []
  | c :: rest => if isspace c then lstrip rest else s
  end.

Definition rstrip (s : pystr) : pystr := rev (lstrip (rev s)).

(** [s.strip()]: the left index moves right over white space, then the
    right index moves left over white space without crossing it. *)
Definition strip (s : pystr) : pystr := rstrip (lstrip s).

(** The decimal digits of a [Decimal.uint], most significant first. *)
Fixpoint uint_digits (d : Decimal.uint) : pystr :=
  match d with
  | Decimal.Nil => []
  | Decimal.D0 r => 48 :: uint_digits r
  | Decimal.D1 r => 49 :: uint_digits r
  | Decimal.D2 r => 50 :: uint_digits r
  | Decimal.D3 r => 51 :: uint_digits r
  | Decimal.D4 r => 52 :: uint_digits r
  | Decimal.D5 r => 53 :: uint_digits r
  | Decimal.D6 r => 54 :: uint_digits r
  | Decimal.D7 r => 55 :: uint_digits r
  | Decimal.D8 r => 56 :: uint_digits r
  | Decimal.D9 r => 57 :: uint_digits r
  end.

(** [f"{count}"] for a non-negative [int]. *)
Definition str_of_int (n : N) : pystr := uint_digits (N.to_uint n).

(** ** Python values that reach the program

    [request.json] is the parsed body: any JSON value.  A [dict] is kept
    as its items; [json.loads] never yields two items with one key. *)

#[local] Unset Elimination Schemes.
Inductive pyval : Type :=
| PNone
| PBool (b : bool)
| PInt (z : Z)
| PFloat (f : spec_float)
| PStr (s : pystr)
| PList (items : list pyval)
| PDict (items : list (pystr * pyval)).
#[local] Set Elimination Schemes.

Definition pystr_eqb (a b : pystr) : bool :=
  if list_eq_dec N.eq_dec a b then true else false.

Fixpoint dict_get (key : pystr) (items : list (pystr * pyval)) : option pyval :=
  match items with
  | [] => None
  | (k, v) :: rest => if pystr_eqb key k then Some v else dict_get key rest
  end.

(** The exceptions the program meets.  [Upstream] stands for any
    [Exception] raised inside a collaborator, with its [str].  The
    [TypeError] of a failed subscript leaves the view before any
    [except] clause could print it, so its text is kept short. *)
Inductive exn : Type :=
| KeyError (key : pystr)
| TypeError
| ValueError (msg : pystr)
| Upstream (msg : pystr).

Definition exn_str (e : exn) : pystr :=
  match e with
  | KeyError key => lit "'" ++ key ++ lit "'"
  | TypeError => lit "object is not subscriptable"
  | ValueError msg => msg
  | Upstream msg => msg
  end.

(** ** What the retrieval pipeline returns

    [RetrievalQA] built with [return_source_documents=True] answers with
    a mapping that holds [result] and [source_documents]. *)

Record Document : Type := { page_content : pystr }.

Record QAResult : Type := {
  result : pystr;
  source_documents : list Document
}.

(** ** The conversation buffer and the request handed to the hosted model *)

Record Turn : Type := { human : pyval; ai : pystr }.

Definition ConversationBuffer : Type := list Turn.

Record LLMRequest : Type := {
  api_key : pystr;
  temperature : Q;
  template : pystr;
  chat_history : ConversationBuffer;
  human_input : pyval
}.

(** ** The literal strings of the source *)

Definition UNAVAILABLE : pystr :=
  lit "Sorry, the knowledge base is not available at the moment. Please try again later.".

Definition ERROR_PROCESSING : pystr :=
  lit "An error occurred while processing your request. Please try again.".

Definition ERROR_SEARCHING : pystr :=
  lit "An error occurred while searching the knowledge base. Please try again.".

Definition COHERE_API_KEY : pystr := lit "COHERE_API_KEY".

Definition MESSAGE : pystr := lit "message".

(** The template of [answer_as_chatbot], with its two placeholders; the
    indentation of the triple-quoted literal is part of the text. *)
Definition TEMPLATE : pystr :=
  lit "You are a helpful AI assistant. Your goal is to provide informative and engaging responses to user queries."
  ++ [LF; LF]
  ++ lit "        Current conversation:" ++ [LF]
  ++ lit "        {chat_history}" ++ [LF; LF]
  ++ lit "        Human: {human_input}" ++ [LF]
  ++ lit "        AI Assistant:".

(** ** The formatting loop of [search_knowledgebase]

    [for count, source in enumerate(docs, 1)] with the accumulator
    [sources], which grows by two f-strings per document. *)
Fixpoint collect_sources (count : N) (docs : list Document) (sources : pystr)
  : pystr :=
  match docs with
  | [] => sources
  | source :: rest =>
      let sources1 := sources ++ (lit "Source " ++ str_of_int count ++ [LF]) in
      let sources2 := sources1 ++ (page_content source ++ [LF]) in
      collect_sources (N.succ count) rest sources2
  end.

Definition format_sources (docs : list Document) : pystr :=
  strip (collect_sources 1 docs []).

(** ** HTTP responses *)

Inductive Body : Type :=
| Json (v : pyval)
| Html (page : pystr)
| ErrorPage.

Record Response : Type := { body : Body; status : N }.

(** [jsonify({'message': text})] *)
Definition jsonify_message (text : pystr) : Body :=
  Json (PDict [(MESSAGE, PStr text)]).

Definition is_client_error (r : Response) : bool :=
  (400 <=? status r) && (status r <=? 499).

Definition is_server_error (r : Response) : bool :=
  (500 <=? status r) && (status r <=? 599).

Section Gateway.

(** The world outside the process: the vector store on disk, the hosted
    services and whatever else a collaborator's answer depends on. *)
Variable World : Type.

(** The object [RetrievalQA.from_chain_type] returns. *)
Variable Handle : Type.

(** [CohereEmbeddings(...)], [Chroma(...)], [Cohere()] and
    [RetrievalQA.from_chain_type(...)], given the credential. *)
Variable build_pipeline : pystr -> World -> World * (exn + Handle).

(** [qa({"query": message})] *)
Variable invoke_pipeline : Handle -> pyval -> World -> World * (exn + QAResult).

(** [Cohere(...)] together with the rendering of the template and the
    call of the hosted model behind [LLMChain.predict]. *)
Variable cohere_predict : LLMRequest -> World -> World * (exn + pystr).

(** [render_template("index.html", title="")] *)
Variable render_index : World -> World * (exn + pystr).

(** The state of the running process: the module-level name [qa], the
    environment variable the program reads, the outside world, what
    [print] has written, and the requests handed to the hosted model
    so far (an observation, not something the program reads). *)
Record Process : Type := {
  qa : option Handle;
  environ : option pystr;
  world : World;
  stdout : list pystr;
  submitted : list LLMRequest
}.

Definition with_qa (handle : option Handle) (p : Process) : Process :=
  {| qa := handle; environ := environ p; world := world p;
     stdout := stdout p; submitted := submitted p |}.

Definition with_world (w : World) (p : Process) : Process :=
  {| qa := qa p; environ := environ p; world := w;
     stdout := stdout p; submitted := submitted p |}.

Definition with_stdout (lines : list pystr) (p : Process) : Process :=
  {| qa := qa p; environ := environ p; world := world p;
     stdout := lines; submitted := submitted p |}.

Definition with_submitted (reqs : list LLMRequest) (p : Process) : Process :=
  {| qa := qa p; environ := environ p; world := world p;
     stdout := stdout p; submitted := reqs |}.

(** *** Computations of the program: state passing with exceptions *)

Definition Py (A : Type) : Type := Process -> (exn + A) * Process.

Definition ret {A} (a : A) : Py A := fun p => (inr a, p).

Definition raise {A} (e : exn) : Py A := fun p => (inl e, p).

Definition bind {A B} (c : Py A) (k : A -> Py B) : Py B :=
  fun p =>
    match c p with
    | (inr a, p') => k a p'
    | (inl e, p') => (inl e, p')
    end.

(** [try: body  except Exception as e: handler] *)
Definition try_except {A} (body : Py A) (handler : exn -> Py A) : Py A :=
  fun p =>
    match body p with
    | (inr a, p') => (inr a, p')
    | (inl e, p') => handler e p'
    end.

Notation "x <- c ;; k" := (bind c (fun x => k))
  (at level 61, c at next level, right associativity).
Notation "c ;;; k" := (bind c (fun _ => k))
  (at level 61, right associativity).

Definition print (line : pystr) : Py unit :=
  fun p => (inr tt, with_stdout (stdout p ++ [line]) p).

(** Reading the global name [qa]. *)
Definition read_qa : Py (option Handle) := fun p => (inr (qa p), p).

(** [os.getenv("COHERE_API_KEY")] *)
Definition getenv : Py (option pystr) := fun p => (inr (environ p), p).

(** [os.environ["COHERE_API_KEY"]] *)
Definition environ_getitem : Py pystr :=
  fun p =>
    match environ p with
    | Some v => (inr v, p)
    | None => (inl (KeyError COHERE_API_KEY), p)
    end.

(** A call into a collaborator: the world moves on, the rest stays. *)
Definition external {A} (call : World -> World * (exn + A)) : Py A :=
  fun p =>
    let (w', out) := call (world p) in
    (out, with_world w' p).

Definition record_submission (req : LLMRequest) : Py unit :=
  fun p => (inr tt, with_submitted (submitted p ++ [req]) p).

(** *** [load_db] and the module-level assignment [qa = load_db()] *)

Definition load_db : Py (option Handle) :=
  try_except
    (key <- environ_getitem ;;
     h <- external (build_pipeline key) ;;
     ret (Some h))
    (fun e => print (lit "Error: " ++ exn_str e) ;;; ret None).

Definition startup (credential : option pystr) (w : World) : Process :=
  let before :=
    {| qa := None; environ := credential; world := w;
       stdout := []; submitted := [] |} in
  match load_db before with
  | (inr handle, p) => with_qa handle p
  | (inl _, p) => p
  end.

(** *** [answer_from_knowledgebase] *)

Definition answer_from_knowledgebase (message : pyval) : Py pystr :=
  handle <- read_qa ;;
  match handle with
  | None => ret UNAVAILABLE
  | Some h =>
      try_except
        (res <- external (invoke_pipeline h message) ;;
         ret (result res))
        (fun e =>
           print (lit "Error in answer_from_knowledgebase: " ++ exn_str e) ;;;
           ret ERROR_PROCESSING)
  end.

(** *** [search_knowledgebase] *)

Definition search_knowledgebase (message : pyval) : Py pystr :=
  handle <- read_qa ;;
  match handle with
  | None => ret UNAVAILABLE
  | Some h =>
      try_except
        (res <- external (invoke_pipeline h message) ;;
         ret (format_sources (source_documents res)))
        (fun e =>
           print (lit "Error in search_knowledgebase: " ++ exn_str e) ;;;
           ret ERROR_SEARCHING)
  end.

(** *** [answer_as_chatbot] *)

(** [ConversationBufferMemory(memory_key="chat_history", ...)]: a new,
    empty buffer. *)
Definition ConversationBufferMemory : ConversationBuffer := [].

(** [LLMChain(llm, prompt, memory).predict(human_input=message)]: the
    buffer is loaded into the prompt, the model is called, and the turn
    is saved to the buffer. *)
Definition LLMChain_predict (key : pystr) (memory : ConversationBuffer)
    (message : pyval) : Py (pystr * ConversationBuffer) :=
  let req :=
    {| api_key := key; temperature := 7 # 10; template := TEMPLATE;
       chat_history := memory; human_input := message |} in
  record_submission req ;;;
  response <- external (cohere_predict req) ;;
  ret (response, memory ++ [{| human := message; ai := response |}]).

Definition answer_as_chatbot (message : pyval) : Py pystr :=
  try_except
    (cohere_api_key <- getenv ;;
     match cohere_api_key with
     | None | Some [] =>
         (* [if not cohere_api_key] *)
         raise (ValueError (lit "COHERE_API_KEY environment variable not set"))
     | Some key =>
         let memory := ConversationBufferMemory in
         out <- LLMChain_predict key memory message ;;
         ret (fst out)
     end)
    (fun e =>
       print (lit "Error in answer_as_chatbot: " ++ exn_str e) ;;;
       ret ERROR_PROCESSING).

(** *** The routes *)

(** [request.json['message']]: a [dict] without the key raises
    [KeyError]; [None], a number, a string or a list subscripted with a
    string raises [TypeError]. *)
Definition request_json_message (request_json : pyval) : Py pyval :=
  match request_json with
  | PDict items =>
      match dict_get MESSAGE items with
      | Some v => ret v
      | None => raise (KeyError MESSAGE)
      end
  | _ => raise TypeError
  end.

Definition kbanswer (request_json : pyval) : Py Response :=
  message <- request_json_message request_json ;;
  response_message <- answer_from_knowledgebase message ;;
  ret {| body := jsonify_message response_message; status := 200 |}.

Definition search (request_json : pyval) : Py Response :=
  message <- request_json_message request_json ;;
  search_results <- search_knowledgebase message ;;
  ret {| body := jsonify_message search_results; status := 200 |}.

Definition answer (request_json : pyval) : Py Response :=
  message <- request_json_message request_json ;;
  response_message <- answer_as_chatbot message ;;
  ret {| body := jsonify_message response_message; status := 200 |}.

Definition index : Py Response :=
  page <- external render_index ;;
  ret {| body := Html page; status := 200 |}.

(** *** The framework around a view

    Flask sends the value a view returns; an exception that leaves a
    view and is not an HTTP exception becomes the response 500. *)
Definition dispatch (view : Py Response) (p : Process) : Response * Process :=
  match view p with
  | (inr r, p') => (r, p')
  | (inl _, p') => ({| body := ErrorPage; status := 500 |}, p')
  end.

Inductive Request : Type :=
| POST_kbanswer (request_json : pyval)
| POST_search (request_json : pyval)
| POST_answer (request_json : pyval)
| GET_index.

(** The three JSON endpoints. *)
Inductive Endpoint : Type := Kbanswer | Search | Answer.

Definition post (e : Endpoint) (request_json : pyval) : Request :=
  match e with
  | Kbanswer => POST_kbanswer request_json
  | Search => POST_search request_json
  | Answer => POST_answer request_json
  end.

Definition handle_request (r : Request) : Process -> Response * Process :=
  match r with
  | POST_kbanswer j => dispatch (kbanswer j)
  | POST_search j => dispatch (search j)
  | POST_answer j => dispatch (answer j)
  | GET_index => dispatch index
  end.

(** The wrapper each endpoint calls. *)
Definition wrapper (e : Endpoint) : pyval -> Py pystr :=
  match e with
  | Kbanswer => answer_from_knowledgebase
  | Search => search_knowledgebase
  | Answer => answer_as_chatbot
  end.

(** The process after a sequence of requests, served one after another. *)
Fixpoint serve (requests : list Request) (p : Process) : Process :=
  match requests with
  | [] => p
  | r :: rest => serve rest (snd (handle_request r p))
  end.

(** What a route leaves of the process: the name [qa] and the
    environment are as before. *)
Definition same_globals (p p' : Process) : Prop :=
  qa p' = qa p /\ environ p' = environ p.

(** The failures of a wrapper, after the taxonomy of the specification:
    the pipeline was not built, the credential is not configured, or
    the call of a collaborator raised. *)
Inductive failure (p : Process) (message : pyval) : Endpoint -> Prop :=
| dependency_unavailable (e : Endpoint) :
    e <> Answer -> qa p = None -> failure p message e
| missing_configuration :
    environ p = None \/ environ p = Some [] -> failure p message Answer
| pipeline_call_failure (e : Endpoint) (h : Handle) (w' : World) (x : exn) :
    e <> Answer -> qa p = Some h ->
    invoke_pipeline h message (world p) = (w', inl x) ->
    failure p message e
| model_call_failure (key : pystr) (w' : World) (x : exn) :
    environ p = Some key -> key <> [] ->
    cohere_predict
      {| api_key := key; temperature := 7 # 10; template := TEMPLATE;
         chat_history := []; human_input := message |} (world p)
    = (w', inl x) ->
    failure p message Answer.

End Gateway.

(** ** The labelled blocks, as the specification words them

    The k-th block is the line [Source k] followed by the text of the
    k-th document; the blocks are separated by newlines and the whole is
    trimmed. *)

Definition labeled_block (k : N) (d : Document) : pystr :=
  lit "Source " ++ str_of_int k ++ [LF] ++ page_content d.

Fixpoint labeled_blocks_from (k : N) (docs : list Document) : list pystr :=
  match docs with
  | [] => []
  | d :: rest => labeled_block k d :: labeled_blocks_from (N.succ k) rest
  end.

Definition labeled_blocks (docs : list Document) : list pystr :=
  labeled_blocks_from 1 docs.

(** [sep.join(parts)] *)
Fixpoint join (sep : pystr) (parts : list pystr) : pystr :=
  match parts with
  | [] => []
  | [x] => x
  | x :: rest => x ++ sep ++ join sep rest
  end.

Definition spec_search_text (docs : list Document) : pystr :=
  strip (join [LF] (labeled_blocks docs)).

(** The [message] field of a JSON body, when the body is an object that
    has one. *)
Definition message_field (request_json : pyval) : option pyval :=
  match request_json with
  | PDict items => dict_get MESSAGE items
  | _ => None
  end.

(** An ASCII decimal digit. *)
Definition isdigit (c : N) : bool := (48 <=? c) && (c <=? 57).

(** The requests [/answer] hands to the hosted model over a sequence of
    requests, for the credential the process holds: one for each
    [POST /answer] that carries a message, none without a usable
    credential. *)
Definition chat_submissions (credential : option pystr) (requests : list Request)
  : list LLMRequest :=
  match credential with
  | Some (c :: key) =>
      flat_map
        (fun r =>
           match r with
           | POST_answer request_json =>
               match message_field request_json with
               | Some message =>
                   [ {| api_key := c :: key; temperature := 7 # 10;
                        template := TEMPLATE; chat_history := [];
                        human_input := message |} ]
               | None => []
               end
           | _ => []
           end)
        requests
  | _ => []
  end.

(** ** Concrete collaborators, for the examples *)

Module Fixture.

(** The world counts the calls made to the collaborators. *)
Definition World : Type := nat.
Definition Handle : Type := unit.

Definition refund_text : pystr := lit "Refunds are processed within 14 days.".

Definition refund_result : QAResult :=
  {| result := refund_text;
     source_documents :=
       [ {| page_content := lit "Refunds are processed within 14 days." |};
         {| page_content := lit "Contact support to start a refund. " |} ] |}.

Definition build_ok (key : pystr) (w : World) : World * (exn + Handle) :=
  (S w, inr tt).

Definition pipeline_ok (h : Handle) (query : pyval) (w : World)
  : World * (exn + QAResult) :=
  (S w, inr refund_result).

Definition pipeline_empty (h : Handle) (query : pyval) (w : World)
  : World * (exn + QAResult) :=
  (S w, inr {| result := lit "I do not know."; source_documents := [] |}).

Definition pipeline_raises (h : Handle) (query : pyval) (w : World)
  : World * (exn + QAResult) :=
  (S w, inl (Upstream (lit "connection reset"))).

Definition model_ok (req : LLMRequest) (w : World) : World * (exn + pystr) :=
  (S w, inr (lit "Hello!")).

Definition render_ok (w : World) : World * (exn + pystr) :=
  (w, inr (lit "<html></html>")).

(** [{"message": text}] *)
Definition body_with (text : pystr) : pyval := PDict [(MESSAGE, PStr text)].

Definition refund_question : pyval := PStr (lit "What is the refund policy?").

(** A process whose pipeline was built. *)
Definition running : Process World Handle :=
  {| qa := Some tt; environ := Some (lit "secret"); world := 0%nat;
     stdout := []; submitted := [] |}.

(** A process started without the credential: [load_db] caught the
    [KeyError] and [qa] is [None]. *)
Definition degraded : Process World Handle := startup build_ok None 0%nat.

Definition build_raises (key : pystr) (w : World) : World * (exn + Handle) :=
  (S w, inl (Upstream (lit "invalid api token"))).

(** A process whose credential is set to the empty string. *)
Definition blank_credential : Process World Handle :=
  {| qa := Some tt; environ := Some []; world := 0%nat;
     stdout := []; submitted := [] |}.

(** A body that is a JSON object without [message]. *)
Definition body_without_message : pyval :=
  PDict [(lit "text", PStr (lit "hello"))].

End Fixture.

(** ** Trimming *)

Unset Implicit Arguments.
Arguments lit : simpl never.

Lemma lstrip_suffix (s : pystr) :
  exists ws, s = ws ++ lstrip s /\ forallb isspace ws = true.
Proof.
  induction s as [|c s IH]; simpl.
  - exists []; auto.
  - destruct (isspace c) eqn:Hc.
    + destruct IH as (ws & Hs & Hws).
      exists (c :: ws); simpl; rewrite Hc, Hws; split; [congruence | reflexivity].
    + exists []; auto.
Qed.

Lemma lstrip_head (s : pystr) (c : N) (rest : pystr) :
  lstrip s = c :: rest -> isspace c = false.
Proof.
  induction s as [|a s IH]; simpl; [discriminate|].
  destruct (isspace a) eqn:Ha; [exact IH|].
  intros [= <- _]; exact Ha.
Qed.

Lemma lstrip_snoc_space (s : pystr) (c : N) :
  isspace c = true ->
  lstrip (s ++ [c]) = match lstrip s with [] => [] | _ :: _ => lstrip s ++ [c] end.
Proof.
  intros Hc; induction s as [|a s IH]; simpl.
  - rewrite Hc; reflexivity.
  - destruct (isspace a); [exact IH | reflexivity].
Qed.

Lemma rstrip_snoc_space (s : pystr) (c : N) :
  isspace c = true -> rstrip (s ++ [c]) = rstrip s.
Proof.
  intros Hc; unfold rstrip; rewrite rev_app_distr; simpl; rewrite Hc; reflexivity.
Qed.

Lemma strip_snoc_space (s : pystr) (c : N) :
  isspace c = true -> strip (s ++ [c]) = strip s.
Proof.
  intros Hc; unfold strip; rewrite (lstrip_snoc_space _ _ Hc).
  destruct (lstrip s) as [|a t]; [reflexivity|].
  apply rstrip_snoc_space, Hc.
Qed.

Lemma rstrip_prefix (s : pystr) :
  exists ws, s = rstrip s ++ ws /\ forallb isspace ws = true.
Proof.
  destruct (lstrip_suffix (rev s)) as (ws & Hs & Hws).
  exists (rev ws); split.
  - unfold rstrip; rewrite <- rev_app_distr, <- Hs, rev_involutive; reflexivity.
  - rewrite forallb_forall in *; intros x Hx; apply Hws, in_rev, Hx.
Qed.

Lemma strip_first (s : pystr) (c : N) (rest : pystr) :
  strip s = c :: rest -> isspace c = false.
Proof.
  unfold strip; intros E.
  destruct (rstrip_prefix (lstrip s)) as (ws & Hs & _).
  rewrite E in Hs; simpl in Hs.
  exact (lstrip_head _ _ _ Hs).
Qed.

Lemma strip_last (s : pystr) (front : pystr) (c : N) :
  strip s = front ++ [c] -> isspace c = false.
Proof.
  unfold strip, rstrip; intros E.
  apply (f_equal (@rev N)) in E.
  rewrite rev_involutive, rev_app_distr in E; simpl in E.
  exact (lstrip_head _ _ _ E).
Qed.

(** ** The loop against the labelled blocks *)

Example str_of_int_12 : str_of_int 12 = lit "12".
Proof. reflexivity. Qed.

Example strip_inner_space_kept :
  strip ([LF; 32] ++ lit "a b" ++ [9; 160; LF]) = lit "a b".
Proof. reflexivity. Qed.

Example collect_two_sources :
  collect_sources 1
    [ {| page_content := lit "alpha" |}; {| page_content := lit "beta" |} ] []
  = lit "Source 1" ++ [LF] ++ lit "alpha" ++ [LF]
    ++ lit "Source 2" ++ [LF] ++ lit "beta" ++ [LF].
Proof. reflexivity. Qed.

Lemma collect_sources_blocks (docs : list Document) :
  forall (count : N) (sources : pystr),
    collect_sources count docs sources
    = sources ++ List.concat (map (fun b => b ++ [LF]) (labeled_blocks_from count docs)).
Proof.
  induction docs as [|d docs IH]; intros count sources;
    cbn [collect_sources labeled_blocks_from map List.concat].
  - rewrite app_nil_r; reflexivity.
  - rewrite IH; unfold labeled_block.
    repeat rewrite <- app_assoc; reflexivity.
Qed.

Lemma concat_lines_join (blocks : list pystr) :
  blocks <> [] ->
  List.concat (map (fun b => b ++ [LF]) blocks) = join [LF] blocks ++ [LF].
Proof.
  induction blocks as [|b blocks IH]; intros Hne; [contradiction|].
  destruct blocks as [|b' blocks].
  - simpl; rewrite app_nil_r; reflexivity.
  - change (List.concat (map (fun b => b ++ [LF]) (b :: b' :: blocks)))
      with ((b ++ [LF]) ++ List.concat (map (fun b => b ++ [LF]) (b' :: blocks))).
    rewrite IH by discriminate.
    change (join [LF] (b :: b' :: blocks)) with (b ++ [LF] ++ join [LF] (b' :: blocks)).
    repeat rewrite <- app_assoc; reflexivity.
Qed.

Lemma isspace_LF : isspace LF = true.
Proof. reflexivity. Qed.

Lemma format_sources_spec (docs : list Document) :
  format_sources docs = spec_search_text docs.
Proof.
  unfold format_sources, spec_search_text, labeled_blocks.
  rewrite collect_sources_blocks; rewrite app_nil_l.
  destruct docs as [|d docs]; [reflexivity|].
  rewrite concat_lines_join by (cbn [labeled_blocks_from]; discriminate).
  apply strip_snoc_space, isspace_LF.
Qed.

Lemma labeled_blocks_from_length (docs : list Document) :
  forall k, List.length (labeled_blocks_from k docs) = List.length docs.
Proof.
  induction docs as [|d docs IH]; intros k; cbn [labeled_blocks_from List.length];
    [|rewrite IH]; reflexivity.
Qed.

Lemma labeled_blocks_from_nth (docs : list Document) :
  forall (k : N) (i : nat) (d : Document),
    nth_error docs i = Some d ->
    nth_error (labeled_blocks_from k docs) i
    = Some (labeled_block (k + N.of_nat i) d).
Proof.
  induction docs as [|d0 docs IH]; intros k i d; destruct i as [|i];
    cbn [nth_error labeled_blocks_from]; try discriminate.
  - intros [= ->]; rewrite N.add_0_r; reflexivity.
  - intros H; rewrite (IH _ _ _ H).
    replace (N.succ k + N.of_nat i) with (k + N.of_nat (S i)) by lia.
    reflexivity.
Qed.

(** ** The handlers, step by step *)

Section Properties.

Variables World Handle : Type.
Variable build_pipeline : pystr -> World -> World * (exn + Handle).
Variable invoke_pipeline : Handle -> pyval -> World -> World * (exn + QAResult).
Variable cohere_predict : LLMRequest -> World -> World * (exn + pystr).
Variable render_index : World -> World * (exn + pystr).

Local Abbreviation Proc := (Process World Handle).
Local Abbreviation handle := (handle_request invoke_pipeline cohere_predict render_index).
Local Abbreviation served := (serve invoke_pipeline cohere_predict render_index).

(** The request [answer_as_chatbot] builds for a credential and a message. *)
Local Abbreviation chat_request key message :=
  {| api_key := key; temperature := 7 # 10; template := TEMPLATE;
     chat_history := []; human_input := message |}.

Lemma answer_from_knowledgebase_run (message : pyval) (p : Proc) :
  answer_from_knowledgebase invoke_pipeline message p =
  match qa p with
  | None => (inr UNAVAILABLE, p)
  | Some h =>
      match invoke_pipeline h message (world p) with
      | (w', inr res) => (inr (result res), with_world w' p)
      | (w', inl e) =>
          (inr ERROR_PROCESSING,
           with_stdout
             (stdout p ++ [lit "Error in answer_from_knowledgebase: " ++ exn_str e])
             (with_world w' p))
      end
  end.
Proof.
  unfold answer_from_knowledgebase, bind, read_qa, try_except, external, ret, print.
  destruct (qa p) as [h|]; [|reflexivity].
  destruct (invoke_pipeline h message (world p)) as [w' [e|res]]; reflexivity.
Qed.

Lemma search_knowledgebase_run (message : pyval) (p : Proc) :
  search_knowledgebase invoke_pipeline message p =
  match qa p with
  | None => (inr UNAVAILABLE, p)
  | Some h =>
      match invoke_pipeline h message (world p) with
      | (w', inr res) =>
          (inr (format_sources (source_documents res)), with_world w' p)
      | (w', inl e) =>
          (inr ERROR_SEARCHING,
           with_stdout
             (stdout p ++ [lit "Error in search_knowledgebase: " ++ exn_str e])
             (with_world w' p))
      end
  end.
Proof.
  unfold search_knowledgebase, bind, read_qa, try_except, external, ret, print.
  destruct (qa p) as [h|]; [|reflexivity].
  destruct (invoke_pipeline h message (world p)) as [w' [e|res]]; reflexivity.
Qed.

Lemma answer_as_chatbot_run (message : pyval) (p : Proc) :
  answer_as_chatbot cohere_predict message p =
  match environ p with
  | None | Some [] =>
      (inr ERROR_PROCESSING,
       with_stdout
         (stdout p ++ [lit "Error in answer_as_chatbot: "
                       ++ lit "COHERE_API_KEY environment variable not set"])
         p)
  | Some key =>
      let p1 := with_submitted (submitted p ++ [chat_request key message]) p in
      match cohere_predict (chat_request key message) (world p) with
      | (w', inr response) => (inr response, with_world w' p1)
      | (w', inl e) =>
          (inr ERROR_PROCESSING,
           with_stdout
             (stdout p ++ [lit "Error in answer_as_chatbot: " ++ exn_str e])
             (with_world w' p1))
      end
  end.
Proof.
  unfold answer_as_chatbot, LLMChain_predict, ConversationBufferMemory,
    bind, getenv, try_except, external, ret, raise, print, record_submission.
  destruct (environ p) as [[|c key]|]; try reflexivity.
  cbn [world with_submitted].
  destruct (cohere_predict _ (world p)) as [w' [e|response]]; reflexivity.
Qed.

Lemma answer_from_knowledgebase_returns (message : pyval) (p : Proc) :
  exists text p',
    answer_from_knowledgebase invoke_pipeline message p = (inr text, p')
    /\ same_globals p p'.
Proof.
  rewrite answer_from_knowledgebase_run.
  destruct (qa p) as [h|] eqn:Hqa.
  - destruct (invoke_pipeline h message (world p)) as [w' [e|res]];
      eexists; eexists; (split; [reflexivity | split; reflexivity]).
  - eexists; eexists; (split; [reflexivity | split; reflexivity]).
Qed.

Lemma search_knowledgebase_returns (message : pyval) (p : Proc) :
  exists text p',
    search_knowledgebase invoke_pipeline message p = (inr text, p')
    /\ same_globals p p'.
Proof.
  rewrite search_knowledgebase_run.
  destruct (qa p) as [h|] eqn:Hqa.
  - destruct (invoke_pipeline h message (world p)) as [w' [e|res]];
      eexists; eexists; (split; [reflexivity | split; reflexivity]).
  - eexists; eexists; (split; [reflexivity | split; reflexivity]).
Qed.

Lemma answer_as_chatbot_returns (message : pyval) (p : Proc) :
  exists text p',
    answer_as_chatbot cohere_predict message p = (inr text, p')
    /\ same_globals p p'.
Proof.
  rewrite answer_as_chatbot_run.
  destruct (environ p) as [[|c key]|] eqn:Henv;
    try (eexists; eexists; (split; [reflexivity | split; [reflexivity | cbn; congruence]])).
  cbv zeta.
  destruct (cohere_predict _ (world p)) as [w' [e|response]];
    eexists; eexists; (split; [reflexivity | split; [reflexivity | cbn; congruence]]).
Qed.

(** [request.json['message']] against [message_field]. *)
Lemma request_json_message_some (request_json message : pyval) (p : Proc) :
  message_field request_json = Some message ->
  request_json_message request_json p = (inr message, p).
Proof.
  unfold message_field, request_json_message.
  destruct request_json; try discriminate.
  intros ->; reflexivity.
Qed.

Lemma request_json_message_none (request_json : pyval) (p : Proc) :
  message_field request_json = None ->
  exists e, request_json_message request_json p = (inl e, p).
Proof.
  unfold message_field, request_json_message.
  destruct request_json; try (intros _; eexists; reflexivity).
  intros ->; eexists; reflexivity.
Qed.

(** A route whose body carries a message answers with what its wrapper
    returns, status 200. *)
Lemma post_with_message (e : Endpoint) (request_json message : pyval) (p : Proc) :
  message_field request_json = Some message ->
  handle (post e request_json) p =
  match wrapper invoke_pipeline cohere_predict e message p with
  | (inr text, p') => ({| body := jsonify_message text; status := 200 |}, p')
  | (inl _, p') => ({| body := ErrorPage; status := 500 |}, p')
  end.
Proof.
  intros Hm.
  destruct e; cbn [post handle_request];
    unfold dispatch, kbanswer, search, answer, bind;
    rewrite (request_json_message_some _ _ _ Hm); cbn [wrapper].
  - destruct (answer_from_knowledgebase invoke_pipeline message p) as [[?|?] ?]; reflexivity.
  - destruct (search_knowledgebase invoke_pipeline message p) as [[?|?] ?]; reflexivity.
  - destruct (answer_as_chatbot cohere_predict message p) as [[?|?] ?]; reflexivity.
Qed.

(** A route whose body carries no message: the subscript raises before
    any wrapper runs, and the framework answers 500. *)
Lemma post_without_message (e : Endpoint) (request_json : pyval) (p : Proc) :
  message_field request_json = None ->
  handle (post e request_json) p = ({| body := ErrorPage; status := 500 |}, p).
Proof.
  intros Hm.
  destruct (request_json_message_none _ p Hm) as [x Hx].
  destruct e; cbn [post handle_request];
    unfold dispatch, kbanswer, search, answer, bind; rewrite Hx; reflexivity.
Qed.

Lemma request_is_post_or_index (r : Request) :
  r = GET_index \/ exists e request_json, r = post e request_json.
Proof.
  destruct r as [j|j|j|]; [right; exists Kbanswer, j | right; exists Search, j
                          | right; exists Answer, j | left]; reflexivity.
Qed.

(** No route assigns [qa] or the environment. *)
Lemma handle_request_globals (r : Request) (p : Proc) :
  same_globals p (snd (handle r p)).
Proof.
  destruct (request_is_post_or_index r) as [->|(e & j & ->)].
  - cbn [handle_request]; unfold dispatch, index, bind, external, ret.
    destruct (render_index (world p)) as [w' [x|page]]; split; reflexivity.
  - destruct (message_field j) as [m|] eqn:Hm.
    + rewrite (post_with_message e _ _ p Hm).
      destruct e; cbn [wrapper].
      * destruct (answer_from_knowledgebase_returns m p) as (t & p' & -> & H); exact H.
      * destruct (search_knowledgebase_returns m p) as (t & p' & -> & H); exact H.
      * destruct (answer_as_chatbot_returns m p) as (t & p' & -> & H); exact H.
    + rewrite (post_without_message e _ p Hm); split; reflexivity.
Qed.

Lemma serve_globals (requests : list Request) :
  forall p : Proc, same_globals p (served requests p).
Proof.
  induction requests as [|r rest IH]; intros p; cbn [serve].
  - split; reflexivity.
  - destruct (IH (snd (handle r p))) as [Hq He].
    destruct (handle_request_globals r p) as [Hq' He'].
    split; congruence.
Qed.

Lemma answer_as_chatbot_with_qa (hd : option Handle) (message : pyval) (p : Proc) :
  answer_as_chatbot cohere_predict message (with_qa hd p) =
  (fst (answer_as_chatbot cohere_predict message p),
   with_qa hd (snd (answer_as_chatbot cohere_predict message p))).
Proof.
  rewrite !answer_as_chatbot_run; cbn [environ world stdout submitted with_qa].
  destruct (environ p) as [[|c key]|]; try reflexivity.
  cbv zeta.
  destruct (cohere_predict _ (world p)) as [w' [e|response]]; reflexivity.
Qed.

Lemma literals_distinct : NoDup [UNAVAILABLE; ERROR_PROCESSING; ERROR_SEARCHING].
Proof.
  repeat constructor; cbn [In]; intros H;
    repeat (destruct H as [H|H]; [discriminate H|]); exact H.
Qed.

(** ** The claims *)

(** C1. When the pipeline is available and its call returns N source
    documents, [search_knowledgebase] returns the trimmed newline-join
    of exactly N labelled blocks, in the order of the documents; block
    number k (counted from 1) is the line [Source k] followed by the
    text of the k-th document; the returned text neither starts nor
    ends with white space. *)
Theorem search_knowledgebase_labeled_blocks
    (p : Proc) (h : Handle) (message : pyval) (w' : World) (res : QAResult) :
  qa p = Some h ->
  invoke_pipeline h message (world p) = (w', inr res) ->
  exists text : pystr,
    fst (search_knowledgebase invoke_pipeline message p) = inr text
    /\ text = strip (join [LF] (labeled_blocks (source_documents res)))
    /\ List.length (labeled_blocks (source_documents res))
       = List.length (source_documents res)
    /\ (forall (i : nat) (d : Document),
          nth_error (source_documents res) i = Some d ->
          nth_error (labeled_blocks (source_documents res)) i
          = Some (lit "Source " ++ str_of_int (N.of_nat i + 1) ++ [LF]
                  ++ page_content d))
    /\ (forall c rest, text = c :: rest -> isspace c = false)
    /\ (forall front c, text = front ++ [c] -> isspace c = false).
Proof.
  intros Hqa Hcall.
  exists (format_sources (source_documents res)).
  split; [rewrite search_knowledgebase_run, Hqa, Hcall; reflexivity|].
  split; [apply format_sources_spec|].
  split; [apply labeled_blocks_from_length|].
  split.
  - intros i d Hi; unfold labeled_blocks.
    rewrite (labeled_blocks_from_nth _ 1 _ _ Hi), N.add_comm; reflexivity.
  - split; intros ? ?; [apply strip_first | apply strip_last].
Qed.

(** C2, as amended. A POST to [/kbanswer], [/search] or [/answer] whose
    JSON body carries no [message] field is answered with status 500, a
    server error and not a client error: the subscript raises before
    the wrapper is called, nothing catches it, and the process is left
    as it was. *)
Theorem missing_message_is_server_error
    (e : Endpoint) (request_json : pyval) (p : Proc) :
  message_field request_json = None ->
  status (fst (handle (post e request_json) p)) = 500
  /\ is_server_error (fst (handle (post e request_json) p)) = true
  /\ is_client_error (fst (handle (post e request_json) p)) = false
  /\ snd (handle (post e request_json) p) = p.
Proof.
  intros Hm; rewrite (post_without_message e _ p Hm).
  repeat split.
Qed.

(** C3. When the handle [qa] is [None], then after any sequence of
    requests [answer_from_knowledgebase] and [search_knowledgebase]
    return the unavailability string, [/kbanswer] and [/search] answer
    a request that carries a message with that string and status 200,
    and what [/answer] responds and does is the same whatever [qa]
    holds. *)
Theorem pipeline_absent_is_permanent
    (p : Proc) (requests : list Request) (request_json message : pyval) :
  qa p = None ->
  message_field request_json = Some message ->
  qa (served requests p) = None
  /\ fst (answer_from_knowledgebase invoke_pipeline message (served requests p))
     = inr UNAVAILABLE
  /\ fst (search_knowledgebase invoke_pipeline message (served requests p))
     = inr UNAVAILABLE
  /\ fst (handle (POST_kbanswer request_json) (served requests p))
     = {| body := jsonify_message UNAVAILABLE; status := 200 |}
  /\ fst (handle (POST_search request_json) (served requests p))
     = {| body := jsonify_message UNAVAILABLE; status := 200 |}
  /\ (forall (q : Proc) (hd : option Handle),
        handle (POST_answer request_json) (with_qa hd q)
        = (fst (handle (POST_answer request_json) q),
           with_qa hd (snd (handle (POST_answer request_json) q)))).
Proof.
  intros Hqa Hm.
  assert (Hq : qa (served requests p) = None).
  { destruct (serve_globals requests p) as [H _]; congruence. }
  split; [exact Hq|].
  split; [rewrite answer_from_knowledgebase_run, Hq; reflexivity|].
  split; [rewrite search_knowledgebase_run, Hq; reflexivity|].
  split.
  { rewrite (post_with_message Kbanswer _ _ _ Hm); cbn [wrapper].
    rewrite answer_from_knowledgebase_run, Hq; reflexivity. }
  split.
  { rewrite (post_with_message Search _ _ _ Hm); cbn [wrapper].
    rewrite search_knowledgebase_run, Hq; reflexivity. }
  intros q hd.
  rewrite !(post_with_message Answer _ _ _ Hm); cbn [wrapper].
  rewrite answer_as_chatbot_with_qa.
  destruct (answer_as_chatbot cohere_predict message q) as [[x|text] q'];
    reflexivity.
Qed.

(** C5. When the credential is absent from the environment,
    [answer_as_chatbot] returns the generic failure string: the
    [ValueError] is caught inside the function, its text goes to the
    log, the hosted model is not called, and [/answer] responds with
    status 200. *)
Theorem chatbot_without_credential (message : pyval) (p : Proc) :
  environ p = None ->
  answer_as_chatbot cohere_predict message p
  = (inr ERROR_PROCESSING,
     with_stdout
       (stdout p ++ [lit "Error in answer_as_chatbot: COHERE_API_KEY environment variable not set"])
       p)
  /\ submitted (snd (answer_as_chatbot cohere_predict message p)) = submitted p
  /\ world (snd (answer_as_chatbot cohere_predict message p)) = world p
  /\ (forall request_json,
        message_field request_json = Some message ->
        fst (handle (POST_answer request_json) p)
        = {| body := jsonify_message ERROR_PROCESSING; status := 200 |}).
Proof.
  intros Henv.
  assert (E : answer_as_chatbot cohere_predict message p
              = (inr ERROR_PROCESSING,
                 with_stdout
                   (stdout p ++ [lit "Error in answer_as_chatbot: COHERE_API_KEY environment variable not set"])
                   p)).
  { rewrite answer_as_chatbot_run, Henv; reflexivity. }
  split; [exact E|].
  rewrite E; split; [reflexivity|]; split; [reflexivity|].
  intros j Hm.
  rewrite (post_with_message Answer _ _ _ Hm); cbn [wrapper].
  rewrite E; reflexivity.
Qed.

(** C6. A POST to [/kbanswer], [/search] or [/answer] whose body carries
    a [message] field is answered with a JSON object that holds a
    [message] text and with status 200, whatever the process, the
    pipeline and the hosted model do. *)
Theorem message_always_answered_200
    (e : Endpoint) (request_json message : pyval) (p : Proc) :
  message_field request_json = Some message ->
  exists text : pystr,
    fst (handle (post e request_json) p)
    = {| body := Json (PDict [(MESSAGE, PStr text)]); status := 200 |}.
Proof.
  intros Hm; rewrite (post_with_message e _ _ p Hm).
  destruct e; cbn [wrapper].
  - destruct (answer_from_knowledgebase_returns message p) as (t & p' & -> & _).
    exists t; reflexivity.
  - destruct (search_knowledgebase_returns message p) as (t & p' & -> & _).
    exists t; reflexivity.
  - destruct (answer_as_chatbot_returns message p) as (t & p' & -> & _).
    exists t; reflexivity.
Qed.

(** C7. When the pipeline is available and its call returns,
    [answer_from_knowledgebase] returns the [result] field of what the
    pipeline returned, unchanged, and [/kbanswer] responds with that
    text as its [message], status 200. *)
Theorem answer_from_knowledgebase_result
    (p : Proc) (h : Handle) (message : pyval) (w' : World) (res : QAResult) :
  qa p = Some h ->
  invoke_pipeline h message (world p) = (w', inr res) ->
  fst (answer_from_knowledgebase invoke_pipeline message p) = inr (result res)
  /\ (forall request_json,
        message_field request_json = Some message ->
        fst (handle (POST_kbanswer request_json) p)
        = {| body := Json (PDict [(MESSAGE, PStr (result res))]); status := 200 |}).
Proof.
  intros Hqa Hcall.
  split; [rewrite answer_from_knowledgebase_run, Hqa, Hcall; reflexivity|].
  intros j Hm.
  rewrite (post_with_message Kbanswer _ _ _ Hm); cbn [wrapper].
  rewrite answer_from_knowledgebase_run, Hqa, Hcall; reflexivity.
Qed.

Lemma failure_text (q : Proc) (m : pyval) (e : Endpoint) :
  failure invoke_pipeline cohere_predict q m e ->
  exists text : pystr,
    fst (wrapper invoke_pipeline cohere_predict e m q) = inr text
    /\ In text [UNAVAILABLE; ERROR_PROCESSING; ERROR_SEARCHING].
Proof.
  intros [e' Hne Hqa | Henv | e' h w' x Hne Hqa Hcall | key w' x Henv Hkey Hcall].
  - exists UNAVAILABLE; split; [|left; reflexivity].
    destruct e'; cbn [wrapper]; [| |contradiction];
      [rewrite answer_from_knowledgebase_run | rewrite search_knowledgebase_run];
      rewrite Hqa; reflexivity.
  - exists ERROR_PROCESSING; split; [|right; left; reflexivity].
    cbn [wrapper]; rewrite answer_as_chatbot_run.
    destruct Henv as [-> | ->]; reflexivity.
  - destruct e'; cbn [wrapper]; [| |contradiction].
    + exists ERROR_PROCESSING; split; [|right; left; reflexivity].
      rewrite answer_from_knowledgebase_run, Hqa, Hcall; reflexivity.
    + exists ERROR_SEARCHING; split; [|right; right; left; reflexivity].
      rewrite search_knowledgebase_run, Hqa, Hcall; reflexivity.
  - exists ERROR_PROCESSING; split; [|right; left; reflexivity].
    cbn [wrapper]; rewrite answer_as_chatbot_run, Henv.
    destruct key as [|c key]; [contradiction|].
    cbv zeta; rewrite Hcall; reflexivity.
Qed.

(** C4, as amended. When the call of the pipeline raises,
    [answer_from_knowledgebase] returns the fixed string about
    processing the request and [search_knowledgebase] returns the fixed
    string about searching the knowledge base, two different strings,
    each with status 200 at its endpoint; over all three wrappers every
    failure is turned into one of exactly three literal strings, each
    of which some failure produces. *)
Theorem upstream_failure_strings
    (p : Proc) (h : Handle) (message : pyval) (w' : World) (x : exn) :
  qa p = Some h ->
  invoke_pipeline h message (world p) = (w', inl x) ->
  fst (answer_from_knowledgebase invoke_pipeline message p) = inr ERROR_PROCESSING
  /\ fst (search_knowledgebase invoke_pipeline message p) = inr ERROR_SEARCHING
  /\ (forall request_json,
        message_field request_json = Some message ->
        fst (handle (POST_kbanswer request_json) p)
        = {| body := jsonify_message ERROR_PROCESSING; status := 200 |}
        /\ fst (handle (POST_search request_json) p)
           = {| body := jsonify_message ERROR_SEARCHING; status := 200 |})
  /\ NoDup [UNAVAILABLE; ERROR_PROCESSING; ERROR_SEARCHING]
  /\ (forall (q : Proc) (m : pyval) (e : Endpoint),
        failure invoke_pipeline cohere_predict q m e ->
        exists text : pystr,
          fst (wrapper invoke_pipeline cohere_predict e m q) = inr text
          /\ In text [UNAVAILABLE; ERROR_PROCESSING; ERROR_SEARCHING])
  /\ (forall text : pystr,
        In text [UNAVAILABLE; ERROR_PROCESSING; ERROR_SEARCHING] ->
        exists (q : Proc) (e : Endpoint),
          failure invoke_pipeline cohere_predict q message e
          /\ fst (wrapper invoke_pipeline cohere_predict e message q) = inr text).
Proof.
  intros Hqa Hcall.
  assert (Ha : fst (answer_from_knowledgebase invoke_pipeline message p)
               = inr ERROR_PROCESSING)
    by (rewrite answer_from_knowledgebase_run, Hqa, Hcall; reflexivity).
  assert (Hs : fst (search_knowledgebase invoke_pipeline message p)
               = inr ERROR_SEARCHING)
    by (rewrite search_knowledgebase_run, Hqa, Hcall; reflexivity).
  split; [exact Ha|]. split; [exact Hs|].
  split.
  { intros j Hm; split.
    - rewrite (post_with_message Kbanswer _ _ _ Hm); cbn [wrapper].
      rewrite answer_from_knowledgebase_run, Hqa, Hcall; reflexivity.
    - rewrite (post_with_message Search _ _ _ Hm); cbn [wrapper].
      rewrite search_knowledgebase_run, Hqa, Hcall; reflexivity. }
  split; [exact literals_distinct|].
  split; [exact failure_text|].
  intros text [<- | [<- | [<- | []]]].
  - exists (with_qa None p), Kbanswer; split.
    + apply dependency_unavailable; [discriminate | reflexivity].
    + cbn [wrapper]; rewrite answer_from_knowledgebase_run; reflexivity.
  - exists p, Kbanswer; split; [|exact Ha].
    eapply pipeline_call_failure; [discriminate | exact Hqa | exact Hcall].
  - exists p, Search; split; [|exact Hs].
    eapply pipeline_call_failure; [discriminate | exact Hqa | exact Hcall].
Qed.

(** C8. [answer_as_chatbot] starts from a new, empty conversation
    buffer at every call: the requests it hands to the hosted model are
    fixed by the credential and the message alone, each with an empty
    chat history, whatever requests were served before; and what it
    returns is the same for two processes that agree on the
    environment and on the outside world. *)
Theorem chatbot_buffer_is_fresh (credential : option pystr) (message : pyval) :
  exists new : list LLMRequest,
    Forall (fun req => chat_history req = [] /\ human_input req = message) new
    /\ (forall (requests : list Request) (p : Proc),
          environ p = credential ->
          submitted (snd (answer_as_chatbot cohere_predict message (served requests p)))
          = submitted (served requests p) ++ new)
    /\ (forall (requests1 requests2 : list Request) (p1 p2 : Proc),
          environ p1 = credential ->
          environ p2 = credential ->
          world (served requests1 p1) = world (served requests2 p2) ->
          fst (answer_as_chatbot cohere_predict message (served requests1 p1))
          = fst (answer_as_chatbot cohere_predict message (served requests2 p2))).
Proof.
  exists (match credential with
          | None | Some [] => []
          | Some key => [chat_request key message]
          end).
  split; [|split].
  - destruct credential as [[|c key]|]; repeat constructor.
  - intros requests p Henv.
    destruct (serve_globals requests p)
      as [_ He].
    rewrite answer_as_chatbot_run, He, Henv.
    destruct credential as [[|c key]|];
      try (cbn [snd submitted with_stdout]; rewrite app_nil_r; reflexivity).
    cbv zeta.
    destruct (cohere_predict _ _) as [w' [e|response]]; reflexivity.
  - intros requests1 requests2 p1 p2 Henv1 Henv2 Hw.
    destruct (serve_globals requests1 p1)
      as [_ He1].
    destruct (serve_globals requests2 p2)
      as [_ He2].
    rewrite !answer_as_chatbot_run, He1, He2, Henv1, Henv2, Hw.
    destruct credential as [[|c key]|]; try reflexivity.
    cbv zeta.
    destruct (cohere_predict _ _) as [w' [e|response]]; reflexivity.
Qed.

(** C9. The name [qa] is assigned once, by [startup]; no route assigns
    it: after any sequence of requests, to any of the routes and with
    any bodies, it holds what it held before. *)
Theorem qa_is_read_only (requests : list Request) (p : Proc) :
  qa (served requests p) = qa p
  /\ (forall (credential : option pystr) (w : World),
        qa (served requests (startup build_pipeline credential w))
        = qa (startup build_pipeline credential w))
  /\ (forall r : Request, qa (snd (handle r p)) = qa p).
Proof.
  split; [apply serve_globals|].
  split; [intros credential w; apply serve_globals|].
  intros r; apply handle_request_globals.
Qed.

(** C10. When the pipeline is available and its call returns an empty
    list of source documents, [search_knowledgebase] returns the empty
    string, and [/search] responds with an empty [message], status
    200. *)
Theorem search_knowledgebase_no_documents
    (p : Proc) (h : Handle) (message : pyval) (w' : World) (res : QAResult) :
  qa p = Some h ->
  invoke_pipeline h message (world p) = (w', inr res) ->
  source_documents res = [] ->
  fst (search_knowledgebase invoke_pipeline message p) = inr []
  /\ (forall request_json,
        message_field request_json = Some message ->
        fst (handle (POST_search request_json) p)
        = {| body := Json (PDict [(MESSAGE, PStr [])]); status := 200 |}).
Proof.
  intros Hqa Hcall Hdocs.
  split.
  - rewrite search_knowledgebase_run, Hqa, Hcall, Hdocs; reflexivity.
  - intros j Hm.
    rewrite (post_with_message Search _ _ _ Hm); cbn [wrapper].
    rewrite search_knowledgebase_run, Hqa, Hcall, Hdocs; reflexivity.
Qed.

End Properties.

(** ** More on the text [search_knowledgebase] builds *)

Lemma isdigit_not_space (c : N) : isdigit c = true -> isspace c = false.
Proof.
  unfold isdigit, isspace; intros H.
  apply andb_true_iff in H; destruct H as [H1 H2].
  apply N.leb_le in H1; apply N.leb_le in H2.
  repeat rewrite orb_false_iff; repeat rewrite andb_false_iff.
  repeat split;
    try (apply N.eqb_neq; lia);
    try (left; apply N.leb_gt; lia);
    try (right; apply N.leb_gt; lia).
Qed.

Lemma uint_digits_isdigit (d : Decimal.uint) :
  forallb isdigit (uint_digits d) = true.
Proof. induction d; cbn [uint_digits forallb]; auto. Qed.

Lemma uint_digits_inj (d : Decimal.uint) :
  forall d', uint_digits d = uint_digits d' -> d = d'.
Proof.
  induction d as [|d IH|d IH|d IH|d IH|d IH|d IH|d IH|d IH|d IH|d IH];
    intros [|d'|d'|d'|d'|d'|d'|d'|d'|d'|d']; cbn [uint_digits]; intros H;
    try discriminate H; try reflexivity;
    injection H as H; f_equal; apply IH, H.
Qed.

Lemma str_of_int_inj (m n : N) : str_of_int m = str_of_int n -> m = n.
Proof.
  unfold str_of_int; intros H.
  apply DecimalN.Unsigned.to_uint_inj, uint_digits_inj, H.
Qed.

Lemma str_of_int_last (n : N) :
  exists front c, str_of_int n = front ++ [c] /\ isdigit c = true.
Proof.
  assert (Hne : str_of_int n <> []).
  { unfold str_of_int; destruct n as [|q]; [discriminate|].
    cbn [N.to_uint].
    pose proof (DecimalPos.Unsigned.to_uint_nonnil q) as Hq.
    destruct (Pos.to_uint q); [contradiction | discriminate ..]. }
  destruct (exists_last Hne) as (front & c & E).
  exists front, c; split; [exact E|].
  pose proof (uint_digits_isdigit (N.to_uint n)) as Hd.
  fold (str_of_int n) in Hd; rewrite E, forallb_app in Hd.
  apply andb_true_iff in Hd; destruct Hd as [_ Hd].
  cbn [forallb] in Hd; rewrite andb_true_r in Hd; exact Hd.
Qed.

Lemma lstrip_app_nonspace (x : pystr) (c : N) (y : pystr) :
  isspace c = false -> lstrip (x ++ c :: y) = lstrip x ++ c :: y.
Proof.
  intros Hc; induction x as [|a x IH]; cbn [lstrip app].
  - rewrite Hc; reflexivity.
  - destruct (isspace a); [exact IH | reflexivity].
Qed.

Lemma rstrip_app_nonspace (a : pystr) (c : N) (b : pystr) :
  isspace c = false -> rstrip (a ++ c :: b) = a ++ c :: rstrip b.
Proof.
  intros Hc; unfold rstrip.
  rewrite rev_app_distr; cbn [rev]; rewrite <- app_assoc; cbn [app].
  rewrite (lstrip_app_nonspace _ _ _ Hc).
  rewrite rev_app_distr; cbn [rev]; rewrite rev_involutive, <- app_assoc.
  reflexivity.
Qed.

Lemma lstrip_all_space (ws : pystr) : forallb isspace ws = true -> lstrip ws = [].
Proof.
  induction ws as [|c ws IH]; cbn [forallb lstrip]; [reflexivity|].
  intros H; apply andb_true_iff in H; destruct H as [-> H]; exact (IH H).
Qed.

Lemma rstrip_all_space (ws : pystr) : forallb isspace ws = true -> rstrip ws = [].
Proof.
  intros H; unfold rstrip; rewrite lstrip_all_space; [reflexivity|].
  rewrite forallb_forall in *; intros x Hx; apply H, in_rev, Hx.
Qed.

Lemma collect_sources_app (xs ys : list Document) :
  forall (count : N) (sources : pystr),
    collect_sources count (xs ++ ys) sources
    = collect_sources (count + N.of_nat (List.length xs)) ys
        (collect_sources count xs sources).
Proof.
  induction xs as [|x xs IH]; intros count sources;
    cbn [collect_sources app List.length].
  - rewrite N.add_0_r; reflexivity.
  - rewrite IH; f_equal; lia.
Qed.

Lemma collect_sources_acc (docs : list Document) :
  forall (count : N) (sources : pystr),
    collect_sources count docs sources = sources ++ collect_sources count docs [].
Proof.
  intros count sources; rewrite !collect_sources_blocks; reflexivity.
Qed.

(** The accumulator of a non-empty list starts with the first label. *)
Lemma collect_sources_head (d : Document) (docs : list Document) (count : N) :
  collect_sources count (d :: docs) []
  = lit "Source " ++ str_of_int count
    ++ LF :: page_content d ++ LF :: collect_sources (N.succ count) docs [].
Proof.
  cbn [collect_sources].
  rewrite collect_sources_acc, app_nil_l.
  repeat rewrite <- app_assoc; reflexivity.
Qed.

Lemma lstrip_collect_sources (docs : list Document) (count : N) :
  lstrip (collect_sources count docs []) = collect_sources count docs [].
Proof.
  destruct docs as [|d docs]; [reflexivity|].
  rewrite collect_sources_head; reflexivity.
Qed.

(** X1. For a non-empty list of documents the text starts with the label
    [Source 1]; trimming acts only on what follows the label. *)
Theorem format_sources_first_label (d : Document) (docs : list Document) :
  format_sources (d :: docs)
  = lit "Source 1"
    ++ rstrip (LF :: page_content d ++ LF :: collect_sources 2 docs []).
Proof.
  unfold format_sources, strip.
  rewrite lstrip_collect_sources, collect_sources_head.
  change (lit "Source " ++ str_of_int 1
          ++ LF :: page_content d ++ LF :: collect_sources (N.succ 1) docs [])
    with (lit "Source " ++ 49
          :: (LF :: page_content d ++ LF :: collect_sources 2 docs [])).
  rewrite rstrip_app_nonspace by reflexivity.
  reflexivity.
Qed.

(** X2. Trimming removes white space at the end of the accumulated text and
    nothing else: the accumulator is the returned text followed by white
    space only. *)
Theorem format_sources_trims_only_the_end (docs : list Document) :
  exists ws : pystr,
    forallb isspace ws = true
    /\ collect_sources 1 docs [] = format_sources docs ++ ws.
Proof.
  unfold format_sources, strip; rewrite lstrip_collect_sources.
  destruct (rstrip_prefix (collect_sources 1 docs [])) as (ws & E & Hws).
  exists ws; split; [exact Hws | exact E].
Qed.

(** X3. When the text of the last document ends with a character that is not
    white space, nothing of any document is lost: the returned text is
    the newline-join of the labelled blocks, and only the final newline
    of the accumulator is gone. *)
Theorem format_sources_keeps_text
    (front : list Document) (d : Document) (body : pystr) (c : N) :
  page_content d = body ++ [c] ->
  isspace c = false ->
  format_sources (front ++ [d]) = join [LF] (labeled_blocks (front ++ [d]))
  /\ collect_sources 1 (front ++ [d]) [] = format_sources (front ++ [d]) ++ [LF].
Proof.
  intros Hd Hc.
  assert (Hjoin : collect_sources 1 (front ++ [d]) []
                  = join [LF] (labeled_blocks (front ++ [d])) ++ [LF]).
  { rewrite collect_sources_blocks, app_nil_l; unfold labeled_blocks.
    apply concat_lines_join.
    destruct front; cbn [app labeled_blocks_from]; discriminate. }
  assert (Hfmt : collect_sources 1 (front ++ [d]) []
                 = format_sources (front ++ [d]) ++ [LF]).
  { unfold format_sources, strip; rewrite lstrip_collect_sources.
    rewrite collect_sources_app; cbn [collect_sources].
    rewrite Hd.
    set (acc := collect_sources 1 front []
                ++ lit "Source " ++ str_of_int (1 + N.of_nat (List.length front)) ++ [LF]).
    replace ((acc ++ (body ++ [c]) ++ [LF])) with ((acc ++ body) ++ c :: [LF])
      by (repeat rewrite <- app_assoc; reflexivity).
    rewrite rstrip_app_nonspace by exact Hc.
    change (rstrip [LF]) with (@nil N).
    repeat rewrite <- app_assoc; reflexivity. }
  split; [|exact Hfmt].
  rewrite Hfmt in Hjoin; exact (app_inv_tail _ _ _ Hjoin).
Qed.

(** X4. When the text of the last document is empty or white space only, the
    returned text ends with the bare label of that document. *)
Theorem format_sources_blank_last_document (front : list Document) (d : Document) :
  forallb isspace (page_content d) = true ->
  format_sources (front ++ [d])
  = collect_sources 1 front []
    ++ lit "Source " ++ str_of_int (N.of_nat (List.length front) + 1).
Proof.
  intros Hblank.
  unfold format_sources, strip; rewrite lstrip_collect_sources.
  rewrite collect_sources_app; cbn [collect_sources].
  rewrite (N.add_comm 1).
  destruct (str_of_int_last (N.of_nat (List.length front) + 1))
    as (ds & c & -> & Hc).
  replace ((collect_sources 1 front [] ++ lit "Source " ++ (ds ++ [c]) ++ [LF])
           ++ page_content d ++ [LF])
    with ((collect_sources 1 front [] ++ lit "Source " ++ ds)
          ++ c :: (LF :: page_content d ++ [LF]))
    by (repeat rewrite <- app_assoc; reflexivity).
  rewrite rstrip_app_nonspace by (apply isdigit_not_space, Hc).
  rewrite rstrip_all_space.
  - repeat rewrite <- app_assoc; reflexivity.
  - cbn [forallb]; rewrite forallb_app, Hblank; reflexivity.
Qed.

Lemma split_at_separator (x : N) (a : pystr) :
  forall (b r r' : pystr),
    ~ In x a -> ~ In x b -> a ++ x :: r = b ++ x :: r' -> a = b /\ r = r'.
Proof.
  induction a as [|a0 a IH]; intros [|b0 b] r r' Ha Hb; cbn [app]; intros E.
  - injection E as E; split; [reflexivity | exact E].
  - injection E as E _; exfalso; apply Hb; left; symmetry; exact E.
  - injection E as E _; exfalso; apply Ha; left; exact E.
  - injection E as E0 E.
    destruct (IH b r r') as [-> ->]; [| |exact E|].
    + intros H; apply Ha; right; exact H.
    + intros H; apply Hb; right; exact H.
    + subst; split; reflexivity.
Qed.

Lemma str_of_int_no_newline (n : N) : ~ In LF (str_of_int n).
Proof.
  intros H.
  pose proof (uint_digits_isdigit (N.to_uint n)) as Hd.
  rewrite forallb_forall in Hd; specialize (Hd LF H); discriminate Hd.
Qed.

(** X5. What one pass of the loop appends determines the number and the text
    of its document: the entries of two documents are equal only when the
    counts are equal and the texts are equal. *)
Theorem source_entry_inj (m n : N) (d d' : Document) :
  collect_sources m [d] [] = collect_sources n [d'] [] ->
  m = n /\ page_content d = page_content d'.
Proof.
  rewrite !collect_sources_head; cbn [collect_sources]; intros E.
  apply app_inv_head in E.
  destruct (split_at_separator LF (str_of_int m) (str_of_int n)
              (page_content d ++ [LF]) (page_content d' ++ [LF])
              (str_of_int_no_newline m) (str_of_int_no_newline n) E) as [Hs Ht].
  split; [exact (str_of_int_inj _ _ Hs) | exact (app_inv_tail _ _ _ Ht)].
Qed.

(** X6. The text of a document is copied as it is: a document whose text
    holds a label line gives the same result as two documents, so the
    number of documents cannot be read back from the returned text. *)
Theorem format_sources_does_not_escape (a b : pystr) :
  format_sources [ {| page_content := a ++ LF :: lit "Source 2" ++ LF :: b |} ]
  = format_sources [ {| page_content := a |}; {| page_content := b |} ].
Proof.
  unfold format_sources; f_equal.
  cbn [collect_sources page_content].
  change (str_of_int (N.succ 1)) with [50].
  change (lit "Source 2") with (lit "Source " ++ [50]).
  repeat rewrite <- app_assoc; cbn [app].
  repeat rewrite <- app_assoc; reflexivity.
Qed.

(** ** Start-up and the life of the process *)

Section Lifetime.

Variables World Handle : Type.
Variable build_pipeline : pystr -> World -> World * (exn + Handle).
Variable invoke_pipeline : Handle -> pyval -> World -> World * (exn + QAResult).
Variable cohere_predict : LLMRequest -> World -> World * (exn + pystr).
Variable render_index : World -> World * (exn + pystr).

Local Abbreviation Proc := (Process World Handle).
Local Abbreviation handle := (handle_request invoke_pipeline cohere_predict render_index).
Local Abbreviation served := (serve invoke_pipeline cohere_predict render_index).
Local Abbreviation chat_request key message :=
  {| api_key := key; temperature := 7 # 10; template := TEMPLATE;
     chat_history := []; human_input := message |}.

Lemma load_db_run (p : Proc) :
  load_db build_pipeline p =
  match environ p with
  | None =>
      (inr None,
       with_stdout (stdout p ++ [lit "Error: " ++ exn_str (KeyError COHERE_API_KEY)]) p)
  | Some key =>
      match build_pipeline key (world p) with
      | (w', inr h) => (inr (Some h), with_world w' p)
      | (w', inl e) =>
          (inr None,
           with_stdout (stdout p ++ [lit "Error: " ++ exn_str e]) (with_world w' p))
      end
  end.
Proof.
  unfold load_db, try_except, bind, environ_getitem, external, ret, print.
  destruct (environ p) as [key|]; [|reflexivity].
  destruct (build_pipeline key (world p)) as [w' [e|h]]; reflexivity.
Qed.

(** X7. [load_db] never lets an exception out.  It returns a handle exactly
    when the credential is in the environment and the construction of
    the pipeline returns; otherwise it returns [None] after printing one
    line that starts with [Error: ].  Without the credential nothing is
    constructed: the outside world is as before. *)
Theorem load_db_returns (p : Proc) :
  exists (r : option Handle) (p' : Proc),
    load_db build_pipeline p = (inr r, p')
    /\ (forall h : Handle,
          r = Some h <->
          exists key w', environ p = Some key
                         /\ build_pipeline key (world p) = (w', inr h))
    /\ (r = None ->
        exists text : pystr, stdout p' = stdout p ++ [lit "Error: " ++ text])
    /\ (r <> None -> stdout p' = stdout p)
    /\ (environ p = None -> world p' = world p).
Proof.
  rewrite load_db_run.
  destruct (environ p) as [key|] eqn:Henv.
  - destruct (build_pipeline key (world p)) as [w' [e|h]] eqn:Hb.
    + exists None; eexists; split; [reflexivity|].
      split; [|split; [|split]].
      * intros h; split; [discriminate|].
        intros (k & w2 & [= <-] & Hb2); rewrite Hb in Hb2; discriminate.
      * intros _; eexists; reflexivity.
      * intros H; contradiction.
      * discriminate.
    + exists (Some h); eexists; split; [reflexivity|].
      split; [|split; [|split]].
      * intros h'; split.
        -- intros [= <-]; exists key, w'; split; [reflexivity | exact Hb].
        -- intros (k & w2 & [= <-] & Hb2); rewrite Hb in Hb2.
           injection Hb2 as _ ->; reflexivity.
      * discriminate.
      * intros _; reflexivity.
      * discriminate.
  - exists None; eexists; split; [reflexivity|].
    split; [|split; [|split]].
    + intros h; split; [discriminate|].
      intros (k & w2 & Hk & _); discriminate.
    + intros _; eexists; reflexivity.
    + intros H; contradiction.
    + intros _; reflexivity.
Qed.

Lemma startup_qa_none (credential : option pystr) (w : World) :
  credential = None
  \/ (exists key w' e, credential = Some key
                       /\ build_pipeline key w = (w', inl e)) ->
  qa (startup build_pipeline credential w) = None.
Proof.
  unfold startup; rewrite load_db_run; cbn [environ world].
  intros [-> | (key & w' & e & -> & Hb)]; [reflexivity|].
  rewrite Hb; reflexivity.
Qed.

(** X8. When the credential is missing at start-up, or the construction of
    the pipeline raises, the process still starts, and from then on
    [/kbanswer] and [/search] answer every request that carries a message
    with the unavailability string and status 200, without calling the
    pipeline and without printing: the request leaves the process as it
    was. *)
Theorem startup_failure_degrades
    (credential : option pystr) (w : World)
    (requests : list Request) (request_json message : pyval) :
  credential = None
  \/ (exists key w' e, credential = Some key
                       /\ build_pipeline key w = (w', inl e)) ->
  message_field request_json = Some message ->
  handle (POST_kbanswer request_json)
    (served requests (startup build_pipeline credential w))
  = ({| body := jsonify_message UNAVAILABLE; status := 200 |},
     served requests (startup build_pipeline credential w))
  /\ handle (POST_search request_json)
       (served requests (startup build_pipeline credential w))
     = ({| body := jsonify_message UNAVAILABLE; status := 200 |},
        served requests (startup build_pipeline credential w)).
Proof.
  intros Hfail Hm.
  pose proof (startup_qa_none credential w Hfail) as H0.
  destruct (serve_globals _ _ invoke_pipeline cohere_predict render_index requests
              (startup build_pipeline credential w)) as [Hq _].
  rewrite H0 in Hq.
  split.
  - rewrite (post_with_message _ _ invoke_pipeline cohere_predict render_index Kbanswer _ _ _ Hm); cbn [wrapper].
    rewrite answer_from_knowledgebase_run, Hq; reflexivity.
  - rewrite (post_with_message _ _ invoke_pipeline cohere_predict render_index Search _ _ _ Hm); cbn [wrapper].
    rewrite search_knowledgebase_run, Hq; reflexivity.
Qed.

(** X9. A credential set to the empty string is treated by
    [answer_as_chatbot] like a missing one: the generic failure string,
    one printed line, no call of the hosted model.  [load_db] has no such
    test: in the same environment it hands the empty credential to the
    construction of the pipeline. *)
Theorem empty_credential
    (message : pyval) (p : Proc) :
  environ p = Some [] ->
  answer_as_chatbot cohere_predict message p
  = (inr ERROR_PROCESSING,
     with_stdout
       (stdout p ++ [lit "Error in answer_as_chatbot: COHERE_API_KEY environment variable not set"])
       p)
  /\ fst (load_db build_pipeline p)
     = inr (match snd (build_pipeline [] (world p)) with
            | inr h => Some h
            | inl _ => None
            end).
Proof.
  intros Henv; split.
  - rewrite answer_as_chatbot_run, Henv; reflexivity.
  - rewrite load_db_run, Henv.
    destruct (build_pipeline [] (world p)) as [w' [e|h]]; reflexivity.
Qed.


(** What one request does to the log and to the requests handed to the
    hosted model. *)
Lemma handle_request_effect (r : Request) (p : Proc) :
  (exists lines : list pystr,
     stdout (snd (handle r p)) = stdout p ++ lines
     /\ (List.length lines <= 1)%nat)
  /\ submitted (snd (handle r p))
     = submitted p ++ chat_submissions (environ p) [r].
Proof.
  assert (Hnil : forall q : Proc,
             (exists lines : list pystr,
                stdout q = stdout q ++ lines /\ (List.length lines <= 1)%nat)).
  { intros q; exists []; split; [symmetry; apply app_nil_r | cbn; lia]. }
  destruct (request_is_post_or_index r) as [->|(e & j & ->)].
  - cbn [handle_request]; unfold dispatch, index, bind, external, ret.
    destruct (render_index (world p)) as [w' [x|page]];
      (split; [apply (Hnil p)|]);
      cbn [snd submitted with_world];
      destruct (environ p) as [[|c key]|]; cbn; rewrite app_nil_r; reflexivity.
  - destruct (message_field j) as [m|] eqn:Hm.
    + rewrite (post_with_message _ _ invoke_pipeline cohere_predict render_index
                 e _ _ p Hm).
      destruct e; cbn [wrapper post].
      * rewrite answer_from_knowledgebase_run.
        destruct (qa p) as [h|];
          [destruct (invoke_pipeline h m (world p)) as [w' [x|res]]|];
          (split; [first [apply (Hnil p) | eexists; split; [reflexivity | cbn; lia]]|]);
          cbn [snd submitted with_world with_stdout];
          destruct (environ p) as [[|c key]|]; cbn; rewrite app_nil_r; reflexivity.
      * rewrite search_knowledgebase_run.
        destruct (qa p) as [h|];
          [destruct (invoke_pipeline h m (world p)) as [w' [x|res]]|];
          (split; [first [apply (Hnil p) | eexists; split; [reflexivity | cbn; lia]]|]);
          cbn [snd submitted with_world with_stdout];
          destruct (environ p) as [[|c key]|]; cbn; rewrite app_nil_r; reflexivity.
      * rewrite answer_as_chatbot_run.
        unfold chat_submissions; cbn [flat_map]; rewrite Hm.
        destruct (environ p) as [[|c key]|].
        -- split; [eexists; split; [reflexivity | cbn; lia]|].
           cbn; rewrite app_nil_r; reflexivity.
        -- cbv zeta.
           destruct (cohere_predict _ (world p)) as [w' [x|response]];
             (split; [first [apply (Hnil p) | eexists; split; [reflexivity | cbn; lia]]|]);
             reflexivity.
        -- split; [eexists; split; [reflexivity | cbn; lia]|].
           cbn; rewrite app_nil_r; reflexivity.
    + rewrite (post_without_message _ _ invoke_pipeline cohere_predict render_index
                 e _ p Hm).
      split; [apply (Hnil p)|].
      cbn [snd]; unfold chat_submissions; cbn [flat_map].
      destruct e; cbn [post]; try rewrite Hm;
        destruct (environ p) as [[|c key]|]; cbn; rewrite app_nil_r; reflexivity.
Qed.

Lemma chat_submissions_cons (credential : option pystr) (r : Request)
    (rest : list Request) :
  chat_submissions credential (r :: rest)
  = chat_submissions credential [r] ++ chat_submissions credential rest.
Proof.
  unfold chat_submissions; destruct credential as [[|c key]|]; try reflexivity.
  cbn [flat_map]; rewrite app_nil_r; reflexivity.
Qed.


(** X12. Over any sequence of requests the hosted model is handed one request
    for each [POST /answer] that carries a message, in order, when the
    credential is set and not empty, and none otherwise; no other route
    hands it anything, and every one of these requests has an empty chat
    history: no turn of a conversation reaches a later request. *)
Theorem served_submissions (requests : list Request) :
  forall p : Proc,
    submitted (served requests p)
    = submitted p ++ chat_submissions (environ p) requests
    /\ Forall (fun req => chat_history req = [])
         (chat_submissions (environ p) requests).
Proof.
  induction requests as [|r rest IH]; intros p; cbn [serve].
  - split.
    + unfold chat_submissions; destruct (environ p) as [[|c key]|];
        cbn; rewrite app_nil_r; reflexivity.
    + unfold chat_submissions; destruct (environ p) as [[|c key]|]; constructor.
  - destruct (handle_request_effect r p) as [_ E1].
    destruct (handle_request_globals _ _ invoke_pipeline cohere_predict
                render_index r p) as [_ He].
    destruct (IH (snd (handle r p))) as [E2 F2].
    rewrite He in E2, F2.
    split.
    + rewrite E2, E1, (chat_submissions_cons (environ p) r rest), app_assoc.
      reflexivity.
    + rewrite chat_submissions_cons; apply Forall_app; split; [|exact F2].
      unfold chat_submissions; destruct (environ p) as [[|c key]|];
        try constructor.
      cbn [flat_map]; rewrite app_nil_r.
      destruct r as [j|j|j|]; try constructor.
      destruct (message_field j); repeat constructor.
Qed.


(** X14. Requests whose body carries no message have no effect, in any
    number: after a sequence of them the process is as it was. *)
Theorem requests_without_message_have_no_effect (requests : list Request) :
  forall p : Proc,
    Forall (fun r => exists e request_json,
                r = post e request_json /\ message_field request_json = None)
      requests ->
    served requests p = p.
Proof.
  induction requests as [|r rest IH]; intros p Hall; cbn [serve]; [reflexivity|].
  inversion Hall as [|r0 rest0 (e & j & -> & Hm) Hrest]; subst.
  rewrite (post_without_message _ _ invoke_pipeline cohere_predict render_index
             e _ p Hm).
  exact (IH p Hrest).
Qed.

End Lifetime.

(** ** The claims on concrete runs *)

Import Fixture.

Lemma search_knowledgebase_labeled_blocks_witness :
  qa running = Some tt
  /\ pipeline_ok tt refund_question (world running) = (1%nat, inr refund_result)
  /\ fst (search_knowledgebase pipeline_ok refund_question running)
     = inr (lit "Source 1" ++ [LF]
            ++ lit "Refunds are processed within 14 days." ++ [LF]
            ++ lit "Source 2" ++ [LF]
            ++ lit "Contact support to start a refund.").
Proof.
  split; [reflexivity|]. split; [reflexivity|].
  destruct (search_knowledgebase_labeled_blocks World Handle pipeline_ok
              running tt refund_question 1%nat refund_result eq_refl eq_refl)
    as (text & Hfst & Htext & _).
  rewrite Hfst, Htext; reflexivity.
Defined.

(** C2, as stated, fails: [/kbanswer] with the body [{}] is answered with
    status 500, which is not a client error. *)
Lemma missing_message_not_client_error :
  message_field (PDict []) = None
  /\ status (fst (handle_request pipeline_ok model_ok render_ok
                    (POST_kbanswer (PDict [])) running)) = 500
  /\ is_client_error (fst (handle_request pipeline_ok model_ok render_ok
                             (POST_kbanswer (PDict [])) running)) = false.
Proof. repeat split. Qed.

Lemma missing_message_is_server_error_witness :
  message_field body_without_message = None
  /\ status (fst (handle_request pipeline_ok model_ok render_ok
                    (post Answer body_without_message) running)) = 500
  /\ is_server_error (fst (handle_request pipeline_ok model_ok render_ok
                             (post Answer body_without_message) running)) = true
  /\ is_client_error (fst (handle_request pipeline_ok model_ok render_ok
                             (post Answer body_without_message) running)) = false
  /\ snd (handle_request pipeline_ok model_ok render_ok
            (post Answer body_without_message) running) = running.
Proof.
  split; [reflexivity|].
  exact (missing_message_is_server_error World Handle pipeline_ok model_ok render_ok
           Answer body_without_message running eq_refl).
Defined.

Lemma pipeline_absent_is_permanent_witness :
  qa degraded = None
  /\ message_field (body_with (lit "hours?")) = Some (PStr (lit "hours?"))
  /\ fst (handle_request pipeline_ok model_ok render_ok
            (POST_search (body_with (lit "hours?")))
            (serve pipeline_ok model_ok render_ok
               [POST_kbanswer (body_with (lit "hi")); GET_index;
                POST_answer (body_with (lit "hi"))]
               degraded))
     = {| body := jsonify_message UNAVAILABLE; status := 200 |}.
Proof.
  split; [reflexivity|]. split; [reflexivity|].
  exact (proj1 (proj2 (proj2 (proj2 (proj2
           (pipeline_absent_is_permanent World Handle pipeline_ok model_ok render_ok
              degraded
              [POST_kbanswer (body_with (lit "hi")); GET_index;
               POST_answer (body_with (lit "hi"))]
              (body_with (lit "hours?")) (PStr (lit "hours?"))
              eq_refl eq_refl)))))).
Defined.

(** C4, as stated, fails: when the pipeline raises, the two wrappers
    return two different strings, and with the unavailability string the
    wrappers have three failure strings, not two. *)
Lemma upstream_failure_strings_differ :
  snd (pipeline_raises tt refund_question (world running))
  = inl (Upstream (lit "connection reset"))
  /\ fst (answer_from_knowledgebase pipeline_raises refund_question running)
     = inr ERROR_PROCESSING
  /\ fst (search_knowledgebase pipeline_raises refund_question running)
     = inr ERROR_SEARCHING
  /\ fst (answer_from_knowledgebase pipeline_raises refund_question running)
     <> fst (search_knowledgebase pipeline_raises refund_question running)
  /\ fst (answer_from_knowledgebase pipeline_raises refund_question degraded)
     = inr UNAVAILABLE
  /\ UNAVAILABLE <> ERROR_PROCESSING
  /\ UNAVAILABLE <> ERROR_SEARCHING.
Proof. repeat split; discriminate. Qed.

Lemma upstream_failure_strings_witness :
  qa running = Some tt
  /\ pipeline_raises tt refund_question (world running)
     = (1%nat, inl (Upstream (lit "connection reset")))
  /\ fst (answer_from_knowledgebase pipeline_raises refund_question running)
     = inr ERROR_PROCESSING
  /\ fst (search_knowledgebase pipeline_raises refund_question running)
     = inr ERROR_SEARCHING.
Proof.
  split; [reflexivity|]. split; [reflexivity|].
  destruct (upstream_failure_strings World Handle pipeline_raises model_ok render_ok
              running tt refund_question 1%nat (Upstream (lit "connection reset"))
              eq_refl eq_refl)
    as (Ha & Hs & _).
  split; [exact Ha | exact Hs].
Defined.

Lemma chatbot_without_credential_witness :
  environ degraded = None
  /\ fst (answer_as_chatbot model_ok (PStr (lit "hi")) degraded)
     = inr ERROR_PROCESSING
  /\ fst (handle_request pipeline_ok model_ok render_ok
            (POST_answer (body_with (lit "hi"))) degraded)
     = {| body := jsonify_message ERROR_PROCESSING; status := 200 |}.
Proof.
  split; [reflexivity|].
  destruct (chatbot_without_credential World Handle pipeline_ok model_ok render_ok
              (PStr (lit "hi")) degraded eq_refl)
    as (E & _ & _ & Hroute).
  split; [rewrite E; reflexivity | exact (Hroute (body_with (lit "hi")) eq_refl)].
Defined.

Lemma message_always_answered_200_witness :
  message_field (body_with (lit "hours?")) = Some (PStr (lit "hours?"))
  /\ exists text : pystr,
       fst (handle_request pipeline_raises model_ok render_ok
              (post Search (body_with (lit "hours?"))) running)
       = {| body := Json (PDict [(MESSAGE, PStr text)]); status := 200 |}.
Proof.
  split; [reflexivity|].
  exact (message_always_answered_200 World Handle pipeline_raises model_ok render_ok
           Search (body_with (lit "hours?")) (PStr (lit "hours?")) running eq_refl).
Defined.

(** The example of the specification: the question about the refund
    policy, answered by the pipeline with the text about 14 days. *)
Lemma answer_from_knowledgebase_result_witness :
  qa running = Some tt
  /\ pipeline_ok tt refund_question (world running) = (1%nat, inr refund_result)
  /\ fst (handle_request pipeline_ok model_ok render_ok
            (POST_kbanswer (body_with (lit "What is the refund policy?"))) running)
     = {| body := Json (PDict [(MESSAGE,
                                PStr (lit "Refunds are processed within 14 days."))]);
          status := 200 |}.
Proof.
  split; [reflexivity|]. split; [reflexivity|].
  exact (proj2 (answer_from_knowledgebase_result World Handle pipeline_ok model_ok
                  render_ok running tt refund_question 1%nat refund_result
                  eq_refl eq_refl)
           (body_with (lit "What is the refund policy?")) eq_refl).
Defined.

Lemma search_knowledgebase_no_documents_witness :
  qa running = Some tt
  /\ pipeline_empty tt refund_question (world running)
     = (1%nat, inr {| result := lit "I do not know."; source_documents := [] |})
  /\ fst (search_knowledgebase pipeline_empty refund_question running) = inr []
  /\ fst (handle_request pipeline_empty model_ok render_ok
            (POST_search (body_with (lit "What is the refund policy?"))) running)
     = {| body := Json (PDict [(MESSAGE, PStr [])]); status := 200 |}.
Proof.
  split; [reflexivity|]. split; [reflexivity|].
  destruct (search_knowledgebase_no_documents World Handle pipeline_empty model_ok
              render_ok running tt refund_question 1%nat
              {| result := lit "I do not know."; source_documents := [] |}
              eq_refl eq_refl eq_refl)
    as (Hw & Hroute).
  split; [exact Hw|].
  exact (Hroute (body_with (lit "What is the refund policy?")) eq_refl).
Defined.

(** ** Further concrete runs *)

Lemma format_sources_keeps_text_witness :
  page_content {| page_content := lit "beta" |} = lit "bet" ++ [97]
  /\ isspace 97 = false
  /\ format_sources
       ([ {| page_content := lit "alpha " |} ] ++ [ {| page_content := lit "beta" |} ])
     = lit "Source 1" ++ [LF] ++ lit "alpha " ++ [LF]
       ++ lit "Source 2" ++ [LF] ++ lit "beta".
Proof.
  split; [reflexivity|]. split; [reflexivity|].
  destruct (format_sources_keeps_text
              [ {| page_content := lit "alpha " |} ]
              {| page_content := lit "beta" |} (lit "bet") 97 eq_refl eq_refl)
    as [E _].
  rewrite E; reflexivity.
Defined.

Lemma format_sources_blank_last_document_witness :
  forallb isspace (page_content {| page_content := [32; 9; LF] |}) = true
  /\ format_sources
       ([ {| page_content := lit "alpha" |} ] ++ [ {| page_content := [32; 9; LF] |} ])
     = lit "Source 1" ++ [LF] ++ lit "alpha" ++ [LF] ++ lit "Source 2".
Proof.
  split; [reflexivity|].
  rewrite (format_sources_blank_last_document
             [ {| page_content := lit "alpha" |} ]
             {| page_content := [32; 9; LF] |} eq_refl).
  reflexivity.
Defined.

Lemma source_entry_inj_witness :
  collect_sources 12 [ {| page_content := lit "alpha" |} ] []
  = collect_sources 12 [ {| page_content := lit "alpha" |} ] []
  /\ 12 = 12
  /\ page_content {| page_content := lit "alpha" |}
     = page_content {| page_content := lit "alpha" |}.
Proof.
  split; [reflexivity|].
  exact (source_entry_inj 12 12 {| page_content := lit "alpha" |}
           {| page_content := lit "alpha" |} eq_refl).
Defined.

Lemma startup_failure_degrades_witness :
  (Some (lit "secret") = None
   \/ exists key w' e, Some (lit "secret") = Some key
                        /\ build_raises key 0%nat = (w', inl e))
  /\ message_field (body_with (lit "hours?")) = Some (PStr (lit "hours?"))
  /\ handle_request pipeline_ok model_ok render_ok
       (POST_search (body_with (lit "hours?")))
       (serve pipeline_ok model_ok render_ok
          [POST_answer (body_with (lit "hi")); GET_index]
          (startup build_raises (Some (lit "secret")) 0%nat))
     = ({| body := jsonify_message UNAVAILABLE; status := 200 |},
        serve pipeline_ok model_ok render_ok
          [POST_answer (body_with (lit "hi")); GET_index]
          (startup build_raises (Some (lit "secret")) 0%nat)).
Proof.
  assert (H : Some (lit "secret") = None
              \/ exists key w' e, Some (lit "secret") = Some key
                                   /\ build_raises key 0%nat = (w', inl e)).
  { right; exists (lit "secret"), 1%nat, (Upstream (lit "invalid api token"));
      split; reflexivity. }
  split; [exact H|]. split; [reflexivity|].
  exact (proj2 (startup_failure_degrades World Handle build_raises pipeline_ok
                  model_ok render_ok (Some (lit "secret")) 0%nat
                  [POST_answer (body_with (lit "hi")); GET_index]
                  (body_with (lit "hours?")) (PStr (lit "hours?")) H eq_refl)).
Defined.

Lemma empty_credential_witness :
  environ blank_credential = Some []
  /\ fst (answer_as_chatbot model_ok (PStr (lit "hi")) blank_credential)
     = inr ERROR_PROCESSING
  /\ submitted (snd (answer_as_chatbot model_ok (PStr (lit "hi")) blank_credential))
     = []
  /\ fst (load_db build_ok blank_credential) = inr (Some tt).
Proof.
  split; [reflexivity|].
  destruct (empty_credential World Handle build_ok model_ok (PStr (lit "hi"))
              blank_credential eq_refl) as [E L].
  rewrite E; split; [reflexivity|]. split; [reflexivity | exact L].
Defined.


Lemma requests_without_message_have_no_effect_witness :
  Forall (fun r => exists e request_json,
              r = post e request_json /\ message_field request_json = None)
    [POST_kbanswer (PDict []); POST_answer PNone; POST_search body_without_message]
  /\ serve pipeline_ok model_ok render_ok
       [POST_kbanswer (PDict []); POST_answer PNone; POST_search body_without_message]
       running
     = running.
Proof.
  assert (H : Forall (fun r => exists e request_json,
                          r = post e request_json
                          /\ message_field request_json = None)
                [POST_kbanswer (PDict []); POST_answer PNone;
                 POST_search body_without_message]).
  { constructor; [exists Kbanswer, (PDict []); split; reflexivity|].
    constructor; [exists Answer, PNone; split; reflexivity|].
    constructor; [exists Search, body_without_message; split; reflexivity|].
    constructor. }
  split; [exact H|].
  exact (requests_without_message_have_no_effect World Handle pipeline_ok model_ok
           render_ok _ running H).
Defined.
